(** * flo: the run logger and the template facade

    A shallow embedding of [flo/logger.py] and [flo/templates/__init__.py].

    The logger is stateful: it writes to the process's standard output, owns
    a file object and is cached in a module global.  Its functions are
    embedded in a state-and-exception monad over an explicit process state.
    The template facade is a pair of functions over the templating engine,
    which is taken as a parameter. *)

From Stdlib Require Import Strings.String Strings.Ascii Strings.Byte.
From stdpp Require Import base option list strings gmap.

Local Open Scope string_scope.

(** ** The part of the Python runtime the two modules rely on *)

Module py.

(** Exceptions.  The engine's [TemplateAssertionError] is a subclass of
    its [TemplateSyntaxError]; [JinjaError] is flo's own class. *)
Inductive exn : Type :=
| TypeError (msg : string)
| ValueError (msg : string)
| AttributeError (msg : string)
| IOError (filename : string)
| UnicodeDecodeError (msg : string)
| TemplateSyntaxError (msg : string) (lineno : nat)
| TemplateAssertionError (msg : string) (lineno : nat)
| TemplateNotFound (name : string)
| UndefinedError (msg : string)
| JinjaError (error : exn).

Inductive result (A : Type) : Type :=
| Return (a : A)
| Raise (e : exn).
Arguments Return {A} a.
Arguments Raise {A} e.

(** The values that reach the logger: [None], text ([str]) and [bytes].
    Text and bytes are two types, which is what the [isinstance] test of
    [Logger.write] tells apart. *)
Inductive value : Type :=
| VNone
| VStr (s : string)
| VBytes (b : list byte).

(** [isinstance(v, bytes)] *)
Definition isinstance_bytes (v : value) : bool :=
  match v with VBytes _ => true | _ => false end.

(** The binary [+] on these values: text with text, bytes with bytes,
    [TypeError] for every other pair. *)
Definition add (a b : value) : result value :=
  match a, b with
  | VStr x, VStr y => Return (VStr (x +:+ y))
  | VBytes x, VBytes y => Return (VBytes (x ++ y))
  | _, _ => Raise (TypeError "unsupported operand type(s) for +")
  end.

(** The one-character text ['\n']. *)
Definition newline : string := String "010" "".

(** References into the object store. *)
Definition ref := nat.

(** A file object as returned by [open]: where it points, whether it has
    been closed, and the text handed to it since it was opened.  Opening
    with mode ['w'] truncates, so [f_data] starts empty. *)
Record file := File {
  f_name : string;
  f_closed : bool;
  f_data : string
}.

(** The process's standard output: text written but not yet flushed, and
    text that has reached the terminal. *)
Record stream := Stream {
  pending : string;
  shown : string
}.

(** Observable effects, in the order they happen. *)
Inductive effect : Type :=
| EOpen (path : string) (f : ref)
| EStdoutWrite (s : string)
| EStdoutFlush
| EFileWrite (f : ref) (s : string)
| EFileClose (f : ref).

End py.

Export py.

(** ** flo/logger.py *)

Module logger.

(** The run context, of which the logger reads one attribute. *)
Record TaskGraph := { abs_log_path : string }.

(** An instance of [class Logger]: its only attribute is [log_file],
    [None] in the class body and set by [__init__]. *)
Record Logger := { log_file : option ref }.

Inductive obj : Type :=
| OFile (f : file)
| OLogger (l : Logger).

(** The state of the process as the module sees it: the object store, the
    paths that can be created for writing, standard output, the effects so
    far, and the module global [_logger]. *)
Record world := World {
  heap : list obj;
  fs_writable : string -> bool;
  sys_stdout : stream;
  trace : list effect;
  _logger : option ref
}.

Definition M (A : Type) : Type := world -> result A * world.

Definition ret {A} (a : A) : M A := fun w => (Return a, w).
Definition raise {A} (e : exn) : M A := fun w => (Raise e, w).
Definition bind {A B} (m : M A) (k : A -> M B) : M B :=
  fun w => match m w with
           | (Return a, w') => k a w'
           | (Raise e, w') => (Raise e, w')
           end.
Definition lift {A} (r : result A) : M A := fun w => (r, w).

Declare Scope py_scope.
Delimit Scope py_scope with py.
Notation "x <- m ;; k" := (bind m (fun x => k))
  (at level 100, m at next level, right associativity) : py_scope.
Notation "m ;; k" := (bind m (fun _ => k))
  (at level 100, right associativity) : py_scope.
Local Open Scope py_scope.

(** *** Primitive operations on the state *)

Definition log (e : effect) : M unit :=
  fun w => (Return tt,
            World (heap w) (fs_writable w) (sys_stdout w) (trace w ++ [e]) (_logger w)).

Definition alloc (o : obj) : M ref :=
  fun w => (Return (length (heap w)),
            World (heap w ++ [o]) (fs_writable w) (sys_stdout w) (trace w) (_logger w)).

Definition store (r : ref) (o : obj) : M unit :=
  fun w => (Return tt,
            World (<[r:=o]> (heap w)) (fs_writable w) (sys_stdout w) (trace w) (_logger w)).

Definition load (r : ref) : M (option obj) :=
  fun w => (Return (heap w !! r), w).

(** [open(path, 'w')] *)
Definition open_w (path : string) : M ref :=
  fun w =>
    if fs_writable w path
    then (f <- alloc (OFile (File path false "")) ;;
          log (EOpen path f) ;;
          ret f) w
    else (Raise (IOError path), w).

(** [f.write(s)]: fails on a closed file. *)
Definition file_write (r : ref) (s : string) : M unit :=
  o <- load r ;;
  match o with
  | Some (OFile f) =>
      if f_closed f
      then raise (ValueError "I/O operation on closed file")
      else store r (OFile (File (f_name f) false (f_data f +:+ s))) ;;
           log (EFileWrite r s)
  | _ => raise (AttributeError "write")
  end.

(** [f.close()]: has no effect on a file that is already closed. *)
Definition file_close (r : ref) : M unit :=
  o <- load r ;;
  match o with
  | Some (OFile f) =>
      if f_closed f
      then ret tt
      else store r (OFile (File (f_name f) true (f_data f))) ;;
           log (EFileClose r)
  | _ => raise (AttributeError "close")
  end.

(** [sys.stdout.write(s)] and [sys.stdout.flush()] *)
Definition stdout_write (s : string) : M unit :=
  fun w => log (EStdoutWrite s)
    (World (heap w) (fs_writable w)
           (Stream (pending (sys_stdout w) +:+ s) (shown (sys_stdout w)))
           (trace w) (_logger w)).

Definition stdout_flush : M unit :=
  fun w => log EStdoutFlush
    (World (heap w) (fs_writable w)
           (Stream "" (shown (sys_stdout w) +:+ pending (sys_stdout w)))
           (trace w) (_logger w)).

(** [self.log_file], then the file it refers to. *)
Definition get_log_file (self : ref) : M ref :=
  o <- load self ;;
  match o with
  | Some (OLogger l) =>
      match log_file l with
      | Some f => ret f
      | None => raise (AttributeError "'NoneType' object has no attribute")
      end
  | _ => raise (AttributeError "log_file")
  end.

(** Reading and assigning the module global [_logger]. *)
Definition get_global : M (option ref) :=
  fun w => (Return (_logger w), w).

Definition set_global (l : option ref) : M unit :=
  fun w => (Return tt,
            World (heap w) (fs_writable w) (sys_stdout w) (trace w) l).

(** *** The class and the module functions *)

Section Logger.

(** [colorless], imported from [flo.colors]: strips the terminal
    formatting sequences from a text. *)
Variable colorless : string -> string.

(** [bytes.decode()] with the default encoding: the text, or [None]
    when the bytes are not valid in that encoding. *)
Variable decode : list byte -> option string.

(** [content.decode()]: only [bytes] has the method here. *)
Definition decode_method (content : value) : result value :=
  match content with
  | VBytes b =>
      match decode b with
      | Some t => Return (VStr t)
      | None => Raise (UnicodeDecodeError "invalid start byte")
      end
  | _ => Raise (AttributeError "decode")
  end.

(** [Logger.__init__] *)
Definition __init__ (self : ref) (task_graph : TaskGraph) : M unit :=
  f <- open_w (abs_log_path task_graph) ;;
  store self (OLogger {| log_file := Some f |}).

(** [Logger(task_graph)]: the instance is created with the attributes of
    the class body, then initialised. *)
Definition Logger_new (task_graph : TaskGraph) : M ref :=
  self <- alloc (OLogger {| log_file := None |}) ;;
  __init__ self task_graph ;;
  ret self.

(** [Logger.write].  [sys.stdout.write] takes text only and rejects any
    other value before it writes. *)
Definition write (self : ref) (content : value) : M unit :=
  content <- (if isinstance_bytes content
              then lift (decode_method content)
              else ret content) ;;
  match content with
  | VStr s =>
      stdout_write s ;;
      stdout_flush ;;
      f <- get_log_file self ;;
      file_write f (colorless s)
  | _ => raise (TypeError "write() argument must be str")
  end.

(** [Logger.info] *)
Definition info (self : ref) (content : value) : M unit :=
  c <- lift (add content (VStr newline)) ;;
  write self c.

(** [Logger.close] *)
Definition close (self : ref) : M unit :=
  f <- get_log_file self ;;
  file_close f.

(** [get] *)
Definition get : M (option ref) :=
  get_global.

(** [configure] *)
Definition configure (task_graph : TaskGraph) : M ref :=
  g <- get_global ;;
  match g with
  | Some l => ret l
  | None =>
      l <- Logger_new task_graph ;;
      set_global (Some l) ;;
      ret l
  end.

End Logger.

(** The call [write(content + '\n')] as a caller would make it: the
    argument is evaluated first, and [write] runs only when that
    succeeded. *)
Definition write_with_newline
    (colorless : string -> string) (decode : list byte -> option string)
    (self : ref) (content : value) : M unit :=
  fun w =>
    match add content (VStr newline) with
    | Return c => write colorless decode self c w
    | Raise e => (Raise e, w)
    end.

(** *** Observations on a state *)

(** The state of a process that has just imported the module: nothing
    allocated, nothing printed, [_logger = None]. *)
Definition initial (writable : string -> bool) : world :=
  World [] writable (Stream "" "") [] None.

(** The paths of the files opened so far, oldest first. *)
Fixpoint opened (t : list effect) : list string :=
  match t with
  | [] => []
  | EOpen path _ :: t' => path :: opened t'
  | _ :: t' => opened t'
  end.

(** What the terminal has received, flushed or not. *)
Definition terminal (w : world) : string :=
  shown (sys_stdout w) +:+ pending (sys_stdout w).

(** What has been handed to the file object at [f]. *)
Definition file_sink (f : ref) (w : world) : option string :=
  match heap w !! f with
  | Some (OFile fo) => Some (f_data fo)
  | _ => None
  end.

(** [self] is a logger whose file object [f] has not been closed. *)
Definition live (self f : ref) (w : world) : Prop :=
  heap w !! self = Some (OLogger {| log_file := Some f |}) /\
  exists fo, heap w !! f = Some (OFile fo) /\ f_closed fo = false.

(** [self] is a logger that went through [__init__]: [log_file] is a file
    object, open or closed. *)
Definition constructed (self f : ref) (w : world) : Prop :=
  heap w !! self = Some (OLogger {| log_file := Some f |}) /\
  exists fo, heap w !! f = Some (OFile fo).

(** Closing [self] a second time is an error: the second call raises. *)
Definition second_close_raises (self : ref) (w : world) : Prop :=
  exists e w', close self (snd (close self w)) = (Raise e, w').

(** *** Instances of the two collaborators, for the examples *)

(** The ASCII codec: every byte below 128 is the character of that code,
    any other byte is an error.  The UTF-8 codec agrees with it on these
    inputs. *)
Fixpoint ascii_decode (b : list byte) : option string :=
  match b with
  | [] => Some ""
  | x :: b' =>
      if (Byte.to_N x <? 128)%N
      then match ascii_decode b' with
           | Some t => Some (String (ascii_of_byte x) t)
           | None => None
           end
      else None
  end.

(** Modelled from the spec: [flo/colors.py], which defines [colorless], is
    not among the sources.  The spec has it remove the terminal formatting
    escape sequences and alter no other character; this instance removes
    every sequence that runs from an ESC character to the next [m]. *)
Fixpoint strip_escapes (in_escape : bool) (s : string) : string :=
  match s with
  | EmptyString => EmptyString
  | String c s' =>
      if in_escape
      then strip_escapes (negb (Ascii.eqb c "m")) s'
      else if Ascii.eqb c "027"
           then strip_escapes true s'
           else String c (strip_escapes false s')
  end.

Definition colorless_sgr (s : string) : string := strip_escapes false s.

(** Two run contexts with different log paths, and the state of a process
    that has configured the logger with the first of them. *)
Definition graph_a : TaskGraph := {| abs_log_path := "/tmp/a/flo.log" |}.
Definition graph_b : TaskGraph := {| abs_log_path := "/tmp/b/flo.log" |}.

(** The text [done] in green: ESC[32m done ESC[0m. *)
Definition green_done : string :=
  String "027" ("[32mdone" +:+ String "027" "[0m").

Definition fresh : world := initial (fun _ => true).
Definition configured : world := snd (configure graph_a fresh).

(** *** Uses of the module *)

(** The texts of a list, end to end. *)
Fixpoint join (ss : list string) : string :=
  match ss with
  | [] => ""
  | s :: ss' => s +:+ join ss'
  end.

(** [for s in texts: self.write(s)]: the loop ends at the first call that
    raises. *)
Fixpoint write_all
    (colorless : string -> string) (decode : list byte -> option string)
    (self : ref) (texts : list string) : M unit :=
  match texts with
  | [] => ret tt
  | s :: texts' =>
      write colorless decode self (VStr s) ;;
      write_all colorless decode self texts'
  end.

(** One call of what the module offers: the two module functions, the
    constructor and the three methods, on any reference and any value. *)
Inductive call : Type :=
| Configure (task_graph : TaskGraph)
| Get
| Construct (task_graph : TaskGraph)
| Write (self : ref) (content : value)
| Info (self : ref) (content : value)
| Close (self : ref).

(** The state after a call; what it returned or raised is the caller's
    business, the process goes on from this state either way. *)
Definition perform
    (colorless : string -> string) (decode : list byte -> option string)
    (c : call) (w : world) : world :=
  match c with
  | Configure task_graph => snd (configure task_graph w)
  | Get => snd (get w)
  | Construct task_graph => snd (Logger_new task_graph w)
  | Write self content => snd (write colorless decode self content w)
  | Info self content => snd (info colorless decode self content w)
  | Close self => snd (close self w)
  end.

(** The state after a sequence of calls, first call first. *)
Fixpoint run
    (colorless : string -> string) (decode : list byte -> option string)
    (cs : list call) (w : world) : world :=
  match cs with
  | [] => w
  | c :: cs' => run colorless decode cs' (perform colorless decode c w)
  end.

(** The calls that go through the singleton: every call but the direct
    use of the constructor. *)
Definition through_singleton (c : call) : bool :=
  match c with
  | Construct _ => false
  | _ => true
  end.

(** One log file per process: while [_logger] is [None] no file has been
    opened, and once it is set it refers to a logger whose [log_file] is
    the one file that has been opened. *)
Definition one_log_file (w : world) : Prop :=
  match _logger w with
  | None => opened (trace w) = []
  | Some l =>
      exists f fo,
        heap w !! l = Some (OLogger {| log_file := Some f |}) /\
        heap w !! f = Some (OFile fo) /\
        opened (trace w) = [f_name fo]
  end.

End logger.

(** ** flo/templates/__init__.py *)

Module templates.

(** *** The templating engine *)

(** The options of an engine environment that the module could set: the
    loader and the class used for undefined variables.  [Undefined], the
    default, is the lenient one. *)
Inductive loader : Type :=
| FileSystemLoader (searchpath : string).

Inductive undefined_class : Type :=
| Undefined
| StrictUndefined.

Record Environment := {
  env_loader : option loader;
  env_undefined : undefined_class
}.

(** [jinja2.Environment(loader=l)]: every other option keeps its default. *)
Definition Environment_new (l : option loader) : Environment :=
  {| env_loader := l; env_undefined := Undefined |}.

(** The render context, [**context_dict]. *)
Abbreviation context := (gmap string value).

(** What the module uses of the engine: compiling a text, loading a named
    template through the loader of the environment, and rendering. *)
Class Engine := {
  Template : Type;
  from_string : Environment -> string -> result Template;
  get_template : Environment -> string -> result Template;
  render : Template -> context -> result string
}.

(** [isinstance(e, jinja2.exceptions.TemplateSyntaxError)], which is what
    the [except] clause tests. *)
Definition isinstance_TemplateSyntaxError (e : exn) : bool :=
  match e with
  | TemplateSyntaxError _ _ | TemplateAssertionError _ _ => true
  | _ => false
  end.

(** The errors of the engine's own hierarchy. *)
Definition engine_error (e : exn) : bool :=
  match e with
  | TemplateSyntaxError _ _ | TemplateAssertionError _ _
  | TemplateNotFound _ | UndefinedError _ => true
  | _ => false
  end.

(** Modelled from the spec: [flo/exceptions.py], which defines
    [JinjaError], is not among the sources.  The spec has it wrap the
    original engine error for display, so its message is the message of
    the error it was built from; the other classes show their own. *)
Fixpoint message (e : exn) : string :=
  match e with
  | TypeError msg | ValueError msg | AttributeError msg
  | UnicodeDecodeError msg | UndefinedError msg => msg
  | IOError filename => filename
  | TemplateSyntaxError msg _ | TemplateAssertionError msg _ => msg
  | TemplateNotFound name => name
  | JinjaError error => message error
  end.

(** [try: body except C, error: handler(error)] *)
Definition try_except {A} (body : result A) (C : exn -> bool)
    (handler : exn -> result A) : result A :=
  match body with
  | Return a => Return a
  | Raise error => if C error then handler error else Raise error
  end.

Definition and_then {A B} (r : result A) (k : A -> result B) : result B :=
  match r with
  | Return a => k a
  | Raise e => Raise e
  end.

Section Templates.

Context {engine : Engine}.

(** [os.path.dirname(os.path.abspath(__file__))] *)
Variable this_directory : string.

(** [render_from_string] *)
Definition render_from_string (template_string : string)
    (context_dict : context) : result string :=
  let env := Environment_new None in
  and_then
    (try_except (from_string env template_string)
       isinstance_TemplateSyntaxError
       (fun error => Raise (JinjaError error)))
    (fun template_obj => render template_obj context_dict).

(** [render_from_file] *)
Definition render_from_file (template_file : string)
    (context_dict : context) : result string :=
  let loader := FileSystemLoader this_directory in
  let env := Environment_new (Some loader) in
  and_then (get_template env template_file)
    (fun template_obj => render template_obj context_dict).

End Templates.

(** *** A stand-in engine, for the examples

    It rejects the text that only opens a print statement, accepts any
    other text and renders it unchanged.  Its template directory holds one
    file, [broken.sh], with that rejected text in it. *)
Definition stand_in_from_string (env : Environment) (source : string)
    : result string :=
  if String.eqb source "{{"
  then Raise (TemplateSyntaxError "unexpected 'end of template'" 1)
  else Return source.

Definition stand_in_get_template (env : Environment) (name : string)
    : result string :=
  if String.eqb name "broken.sh"
  then stand_in_from_string env "{{"
  else Raise (TemplateNotFound name).

#[local] Instance stand_in : Engine := {|
  Template := string;
  from_string := stand_in_from_string;
  get_template := stand_in_get_template;
  render := fun t _ => Return t
|}.

(** *** A second stand-in engine

    Every text compiles to itself, and rendering a template looks its
    text up in the context: a text value is the rendering, a missing name
    or a value that is not a text is an error raised while rendering.  Its
    template directory holds one file, [greeting], with the text [name]
    in it. *)
Definition lookup_render (t : string) (ctx : context) : result string :=
  match ctx !! t with
  | Some (VStr v) => Return v
  | Some _ => Raise (TypeError "expected a text")
  | None => Raise (UndefinedError t)
  end.

Definition lookup_get_template (env : Environment) (name : string)
    : result string :=
  if String.eqb name "greeting"
  then Return "name"
  else Raise (TemplateNotFound name).

#[local] Instance lookup_engine : Engine := {|
  Template := string;
  from_string := fun _ source => Return source;
  get_template := lookup_get_template;
  render := lookup_render
|}.

End templates.

(** ** Properties of the logger *)

Module logger_facts.

Import logger.
Local Open Scope list_scope.
Local Open Scope py_scope.

(** Unfolding the monad and the primitive operations. *)
Ltac run :=
  unfold configure, get, close, info, write, Logger_new, __init__,
    write_with_newline, get_log_file, file_close, file_write, open_w,
    stdout_write, stdout_flush, get_global, set_global,
    log, alloc, store, load, bind, ret, raise, lift; simpl.

(** *** Primitive operations *)

Lemma get_log_file_constructed self f w :
  heap w !! self = Some (OLogger {| log_file := Some f |}) ->
  get_log_file self w = (Return f, w).
Proof. intros H. run. rewrite H. reflexivity. Qed.

Lemma file_close_open f fo w :
  heap w !! f = Some (OFile fo) -> f_closed fo = false ->
  file_close f w =
    (Return tt,
     World (<[f := OFile (File (f_name fo) true (f_data fo))]> (heap w))
           (fs_writable w) (sys_stdout w) (trace w ++ [EFileClose f])
           (_logger w)).
Proof. intros H Hc. run. rewrite H, Hc. reflexivity. Qed.

Lemma file_close_closed f fo w :
  heap w !! f = Some (OFile fo) -> f_closed fo = true ->
  file_close f w = (Return tt, w).
Proof. intros H Hc. run. rewrite H, Hc. reflexivity. Qed.

Lemma file_write_open f fo s w :
  heap w !! f = Some (OFile fo) -> f_closed fo = false ->
  file_write f s w =
    (Return tt,
     World (<[f := OFile (File (f_name fo) false (f_data fo +:+ s))]> (heap w))
           (fs_writable w) (sys_stdout w) (trace w ++ [EFileWrite f s])
           (_logger w)).
Proof. intros H Hc. run. rewrite H, Hc. reflexivity. Qed.

Lemma file_write_closed f fo s w :
  heap w !! f = Some (OFile fo) -> f_closed fo = true ->
  file_write f s w = (Raise (ValueError "I/O operation on closed file"), w).
Proof. intros H Hc. run. rewrite H, Hc. reflexivity. Qed.

Lemma append_nil_r (s : string) : s +:+ "" = s.
Proof.
  induction s as [|c s IH]; [reflexivity|].
  change (String c (s +:+ "") = String c s). rewrite IH. reflexivity.
Qed.

Lemma append_assoc (s1 s2 s3 : string) :
  s1 +:+ (s2 +:+ s3) = (s1 +:+ s2) +:+ s3.
Proof.
  induction s1 as [|c s1 IH]; [reflexivity|].
  change (String c (s1 +:+ (s2 +:+ s3)) = String c ((s1 +:+ s2) +:+ s3)).
  rewrite IH. reflexivity.
Qed.

Lemma opened_app (t1 t2 : list effect) :
  opened (t1 ++ t2) = (opened t1 ++ opened t2)%list.
Proof.
  induction t1 as [|e t1 IH]; [reflexivity|].
  destruct e; simpl; rewrite IH; reflexivity.
Qed.

(** No method and no module function clears or changes [_logger], except
    [configure] when it was [None]. *)
Lemma close_global self w : _logger (snd (close self w)) = _logger w.
Proof.
  run. destruct (heap w !! self) as [[fo|[[f|]]]|]; simpl; try reflexivity.
  destruct (heap w !! f) as [[fo|l]|]; simpl; try reflexivity.
  destruct (f_closed fo); reflexivity.
Qed.

(** *** [close] *)

Lemma constructed_distinct self f w : constructed self f w -> self <> f.
Proof. intros [Hl [fo Hf]] ->. rewrite Hl in Hf. discriminate. Qed.

Lemma close_open self f fo w :
  heap w !! self = Some (OLogger {| log_file := Some f |}) ->
  heap w !! f = Some (OFile fo) -> f_closed fo = false ->
  close self w =
    (Return tt,
     World (<[f := OFile (File (f_name fo) true (f_data fo))]> (heap w))
           (fs_writable w) (sys_stdout w) (trace w ++ [EFileClose f])
           (_logger w)).
Proof.
  intros Hl Hf Hc. unfold close, bind.
  rewrite (get_log_file_constructed _ _ _ Hl).
  apply file_close_open; assumption.
Qed.

Lemma close_closed self f fo w :
  heap w !! self = Some (OLogger {| log_file := Some f |}) ->
  heap w !! f = Some (OFile fo) -> f_closed fo = true ->
  close self w = (Return tt, w).
Proof.
  intros Hl Hf Hc. unfold close, bind.
  rewrite (get_log_file_constructed _ _ _ Hl).
  eapply file_close_closed; eassumption.
Qed.

(** C1, as the code has it: on a logger that went through [__init__],
    [close()] returns normally, and a second [close()] returns normally as
    well and changes nothing: closing the file object that is already
    closed has no effect, so closing twice is not an error. *)
Theorem close_twice_is_no_error (self f : ref) (w : world) :
  constructed self f w ->
  exists w1 fo1,
    close self w = (Return tt, w1) /\
    heap w1 !! f = Some (OFile fo1) /\ f_closed fo1 = true /\
    close self w1 = (Return tt, w1).
Proof.
  intros Hc. pose proof (constructed_distinct _ _ _ Hc) as Hne.
  destruct Hc as [Hl [fo Hf]].
  destruct (f_closed fo) eqn:Hcl.
  - exists w, fo. rewrite (close_closed _ _ _ _ Hl Hf Hcl). auto.
  - rewrite (close_open _ _ _ _ Hl Hf Hcl).
    eexists _, (File (f_name fo) true (f_data fo)).
    split; [reflexivity|].
    assert (Hf1 : <[f:=OFile (File (f_name fo) true (f_data fo))]> (heap w) !! f
                  = Some (OFile (File (f_name fo) true (f_data fo)))).
    { apply list_lookup_insert_eq. eapply lookup_lt_Some; eassumption. }
    split; [exact Hf1|]. split; [reflexivity|].
    eapply close_closed; simpl; [|exact Hf1|reflexivity].
    rewrite list_lookup_insert_ne by auto. exact Hl.
Qed.

Lemma configured_constructed : constructed 0 1 configured.
Proof. split; [reflexivity|]. eexists; reflexivity. Qed.

Lemma close_twice_is_no_error_witness :
  constructed 0 1 configured /\
  exists w1 fo1,
    close 0 configured = (Return tt, w1) /\
    heap w1 !! 1 = Some (OFile fo1) /\ f_closed fo1 = true /\
    close 0 w1 = (Return tt, w1).
Proof.
  split; [exact configured_constructed|].
  apply (close_twice_is_no_error 0 1 configured).
  exact configured_constructed.
Defined.

(** C1, as stated, fails: after [configure] and one [close()], the second
    [close()] on the same logger does not raise. *)
Lemma second_close_does_not_raise :
  fst (close 0 configured) = Return tt /\
  ~ second_close_raises 0 configured.
Proof.
  split; [reflexivity|].
  intros [e [w' H]]. vm_compute in H. discriminate.
Qed.

(** *** [configure] and [get] *)

Lemma configure_set ctx l w :
  _logger w = Some l -> configure ctx w = (Return l, w).
Proof. intros H. run. rewrite H. reflexivity. Qed.

Lemma configure_unset ctx w :
  _logger w = None -> fs_writable w (abs_log_path ctx) = true ->
  configure ctx w =
    (Return (length (heap w)),
     World (<[length (heap w) := OLogger {| log_file := Some (S (length (heap w))) |}]>
              ((heap w ++ [OLogger {| log_file := None |}])
                 ++ [OFile (File (abs_log_path ctx) false "")]))
           (fs_writable w) (sys_stdout w)
           (trace w ++ [EOpen (abs_log_path ctx) (S (length (heap w)))])
           (Some (length (heap w)))).
Proof.
  intros Hg Hw. run. rewrite Hg. simpl. rewrite Hw. simpl.
  rewrite length_app. simpl. rewrite Nat.add_1_r. reflexivity.
Qed.

Lemma configure_unwritable ctx w :
  _logger w = None -> fs_writable w (abs_log_path ctx) = false ->
  exists w', configure ctx w = (Raise (IOError (abs_log_path ctx)), w') /\
             _logger w' = None /\ trace w' = trace w.
Proof.
  intros Hg Hw. run. rewrite Hg. simpl. rewrite Hw. simpl.
  eexists. split; [reflexivity|]. simpl. auto.
Qed.

(** When the first path cannot be created, the first call raises, nothing
    is cached, and the next call opens the file of its own context. *)
Example configure_after_failure :
  let w := initial (String.eqb "/tmp/b/flo.log") in
  let w1 := snd (configure graph_a w) in
  fst (configure graph_a w) = Raise (IOError "/tmp/a/flo.log") /\
  _logger w1 = None /\
  fst (configure graph_b w1) = Return 1 /\
  opened (trace (snd (configure graph_b w1))) = ["/tmp/b/flo.log"].
Proof. repeat split; reflexivity. Qed.

(** C2: in a process where the logger has not been configured and the log
    path of [ctx1] can be created, [configure(ctx1)] followed by
    [configure(ctx2)] returns the same instance twice, whatever [ctx2] is;
    the second call leaves the state as it was, so the one file opened is
    the one at the path of [ctx1]. *)
Theorem configure_first_wins (ctx1 ctx2 : TaskGraph) (w : world) :
  _logger w = None ->
  fs_writable w (abs_log_path ctx1) = true ->
  exists l w1,
    configure ctx1 w = (Return l, w1) /\
    configure ctx2 w1 = (Return l, w1) /\
    live l (S l) w1 /\
    file_sink (S l) w1 = Some "" /\
    opened (trace w1) = (opened (trace w) ++ [abs_log_path ctx1])%list.
Proof.
  intros Hg Hw. rewrite (configure_unset _ _ Hg Hw).
  eexists _, _. split; [reflexivity|].
  split; [apply configure_set; reflexivity|].
  assert (Hl : forall o,
    <[length (heap w) := o]>
      ((heap w ++ [OLogger {| log_file := None |}])
         ++ [OFile (File (abs_log_path ctx1) false "")]) !! S (length (heap w))
    = Some (OFile (File (abs_log_path ctx1) false ""))).
  { intros o. rewrite list_lookup_insert_ne by lia.
    rewrite lookup_app_r; rewrite length_app; simpl; [|lia].
    replace (S (length (heap w)) - (length (heap w) + 1)) with 0 by lia.
    reflexivity. }
  split; [|split].
  - split; simpl.
    + apply list_lookup_insert_eq. rewrite !length_app. simpl. lia.
    + eexists. split; [apply Hl|reflexivity].
  - unfold file_sink. simpl. rewrite Hl. reflexivity.
  - simpl. rewrite opened_app. reflexivity.
Qed.

Lemma configure_first_wins_witness :
  exists l w1,
    configure graph_a fresh = (Return l, w1) /\
    configure graph_b w1 = (Return l, w1) /\
    live l (S l) w1 /\
    file_sink (S l) w1 = Some "" /\
    opened (trace w1) = ([] ++ ["/tmp/a/flo.log"])%list.
Proof.
  apply (configure_first_wins graph_a graph_b fresh); reflexivity.
Defined.

(** C8: [get] reads the global and leaves the state as it is, so it
    constructs nothing.  In a process that has not called [configure] it
    returns [None]; after a call of [configure] that returned, it returns
    the instance that call returned, and after a call that raised, the
    global is still [None]. *)
Theorem get_reads_the_global :
  (forall w, get w = (Return (_logger w), w)) /\
  (forall writable, get (initial writable) = (Return None, initial writable)) /\
  (forall ctx w,
     match configure ctx w with
     | (Return l, w') => get w' = (Return (Some l), w')
     | (Raise _, w') => _logger w = None /\ get w' = (Return None, w')
     end).
Proof.
  split; [reflexivity|]. split; [reflexivity|].
  intros ctx w. destruct (_logger w) as [l|] eqn:Hg.
  - rewrite (configure_set _ _ _ Hg). unfold get, get_global. rewrite Hg. reflexivity.
  - destruct (fs_writable w (abs_log_path ctx)) eqn:Hw.
    + rewrite (configure_unset _ _ Hg Hw). reflexivity.
    + destruct (configure_unwritable _ _ Hg Hw) as [w' [-> [Hg' _]]].
      split; [reflexivity|]. unfold get, get_global. rewrite Hg'. reflexivity.
Qed.

(** C10: [close] leaves [_logger] as it is.  After [close()] on the
    configured logger, [get()] returns that instance, and [configure] with
    any run context returns it and changes nothing in the state: no
    object is created and no file is opened. *)
Theorem close_keeps_the_singleton (l : ref) (w : world) :
  _logger w = Some l ->
  let w' := snd (close l w) in
  _logger w' = Some l /\
  get w' = (Return (Some l), w') /\
  forall ctx, configure ctx w' = (Return l, w').
Proof.
  intros Hg w'. assert (Hg' : _logger w' = Some l).
  { unfold w'. rewrite close_global. exact Hg. }
  split; [exact Hg'|]. split.
  - unfold get, get_global. rewrite Hg'. reflexivity.
  - intros ctx. apply configure_set. exact Hg'.
Qed.

Lemma close_keeps_the_singleton_witness :
  _logger configured = Some 0 /\
  let w' := snd (close 0 configured) in
  _logger w' = Some 0 /\
  get w' = (Return (Some 0), w') /\
  forall ctx, configure ctx w' = (Return 0, w').
Proof.
  split; [reflexivity|].
  apply (close_keeps_the_singleton 0 configured). reflexivity.
Defined.

(** *** [write] and [info] *)

Section Sinks.

Variable colorless : string -> string.
Variable decode : list byte -> option string.

Lemma write_text_unfold self s w :
  write colorless decode self (VStr s) w =
    (stdout_write s ;; stdout_flush ;;
     f <- get_log_file self ;; file_write f (colorless s)) w.
Proof. reflexivity. Qed.

(** C3: on a logger whose file is open, [write] of a text [s] returns
    [None] after exactly three effects, in this order: [s] itself is
    written to standard output, standard output is flushed, and
    [colorless s] is written to the log file.  The terminal has then
    received [s] after what it had, all of it flushed, and the file has
    received [colorless s] after what it had. *)
Theorem write_effects_in_order (self f : ref) (fo : file) (s : string) (w : world) :
  heap w !! self = Some (OLogger {| log_file := Some f |}) ->
  heap w !! f = Some (OFile fo) ->
  f_closed fo = false ->
  exists w',
    write colorless decode self (VStr s) w = (Return tt, w') /\
    trace w' = trace w ++ [EStdoutWrite s; EStdoutFlush; EFileWrite f (colorless s)] /\
    sys_stdout w' = Stream "" (shown (sys_stdout w) +:+ (pending (sys_stdout w) +:+ s)) /\
    terminal w' = terminal w +:+ s /\
    file_sink f w' = Some (f_data fo +:+ colorless s) /\
    heap w' = <[f := OFile (File (f_name fo) false (f_data fo +:+ colorless s))]> (heap w) /\
    _logger w' = _logger w.
Proof.
  intros Hl Hf Hc. rewrite write_text_unfold.
  unfold bind at 1. unfold stdout_write at 1, log at 1.
  unfold bind at 1. unfold stdout_flush at 1, log at 1. cbn [sys_stdout heap fs_writable trace _logger pending shown].
  unfold bind at 1. rewrite (get_log_file_constructed self f) by exact Hl.
  erewrite file_write_open by (simpl; eassumption).
  eexists. split; [reflexivity|]. simpl.
  split; [rewrite <- !app_assoc; reflexivity|].
  split; [reflexivity|].
  split; [unfold terminal; simpl; rewrite append_nil_r; apply append_assoc|].
  split; [|split; reflexivity].
  unfold file_sink. simpl.
  rewrite list_lookup_insert_eq by (eapply lookup_lt_Some; eassumption).
  reflexivity.
Qed.

(** When the file has been closed, the terminal still receives the text
    and the call then raises. *)
Lemma write_after_close self f fo s w :
  heap w !! self = Some (OLogger {| log_file := Some f |}) ->
  heap w !! f = Some (OFile fo) ->
  f_closed fo = true ->
  exists w',
    write colorless decode self (VStr s) w
      = (Raise (ValueError "I/O operation on closed file"), w') /\
    trace w' = trace w ++ [EStdoutWrite s; EStdoutFlush] /\
    heap w' = heap w.
Proof.
  intros Hl Hf Hc. rewrite write_text_unfold.
  unfold bind at 1. unfold stdout_write at 1, log at 1.
  unfold bind at 1. unfold stdout_flush at 1, log at 1. cbn [sys_stdout heap fs_writable trace _logger pending shown].
  unfold bind at 1. rewrite (get_log_file_constructed self f) by exact Hl.
  erewrite file_write_closed by (simpl; eassumption).
  eexists. split; [reflexivity|]. simpl.
  split; [rewrite <- !app_assoc|]; reflexivity.
Qed.

(** C7: when the bytes [b] decode to the text [t], [write] of [b] is
    [write] of [t]: same result, same final state, hence the same output
    on the terminal and in the file. *)
Theorem write_bytes_as_text (self : ref) (b : list byte) (t : string) (w : world) :
  decode b = Some t ->
  write colorless decode self (VBytes b) w = write colorless decode self (VStr t) w.
Proof.
  intros Hd. unfold write at 1. simpl. unfold lift, bind. simpl.
  rewrite Hd. reflexivity.
Qed.

(** Bytes that do not decode raise before either sink is touched. *)
Lemma write_bytes_undecodable self b w :
  decode b = None ->
  write colorless decode self (VBytes b) w
    = (Raise (UnicodeDecodeError "invalid start byte"), w).
Proof.
  intros Hd. unfold write. simpl. unfold lift, bind. simpl.
  rewrite Hd. reflexivity.
Qed.

(** C4: [info(content)] is the call [write(content + '\n')], for every
    content and in every state: same result, same final state, so the
    same output on both sinks.  For a text, that is [write] of the text
    with the newline appended. *)
Theorem info_is_write_with_newline (self : ref) :
  (forall content w,
     info colorless decode self content w
       = write_with_newline colorless decode self content w) /\
  (forall s w,
     info colorless decode self (VStr s) w
       = write colorless decode self (VStr (s +:+ newline)) w).
Proof.
  split.
  - intros content w. unfold info, write_with_newline, bind, lift.
    destruct (add content (VStr newline)); reflexivity.
  - reflexivity.
Qed.

(** For bytes, the sum with the text ['\n'] is a [TypeError], in [info] as
    in the call, and neither sink is touched. *)
Lemma info_bytes_type_error self b w :
  info colorless decode self (VBytes b) w
    = (Raise (TypeError "unsupported operand type(s) for +"), w) /\
  write_with_newline colorless decode self (VBytes b) w
    = (Raise (TypeError "unsupported operand type(s) for +"), w).
Proof. split; reflexivity. Qed.

End Sinks.

Example colorless_sgr_green_done : colorless_sgr green_done = "done".
Proof. reflexivity. Qed.

Example ascii_decode_high_byte : ascii_decode ["a"%byte; xff] = None.
Proof. reflexivity. Qed.

(** [info] of a coloured text after [configure]: the terminal has the
    text with its colours and the newline, the file has it without the
    colours. *)
Example info_green_done :
  let w' := snd (info colorless_sgr ascii_decode 0 (VStr green_done) configured) in
  terminal w' = green_done +:+ newline /\
  file_sink 1 w' = Some ("done" +:+ newline).
Proof. split; reflexivity. Qed.

Lemma write_effects_in_order_witness :
  let w := configured in
  heap w !! 0 = Some (OLogger {| log_file := Some 1 |}) /\
  heap w !! 1 = Some (OFile (File "/tmp/a/flo.log" false "")) /\
  exists w',
    write colorless_sgr ascii_decode 0 (VStr green_done) w = (Return tt, w') /\
    trace w' = trace w ++ [EStdoutWrite green_done; EStdoutFlush; EFileWrite 1 "done"] /\
    sys_stdout w' = Stream "" green_done /\
    file_sink 1 w' = Some "done".
Proof.
  split; [reflexivity|]. split; [reflexivity|].
  destruct (write_effects_in_order colorless_sgr ascii_decode 0 1
              (File "/tmp/a/flo.log" false "") green_done configured)
    as [w' [H1 [H2 [H3 [_ [H4 _]]]]]]; try reflexivity.
  exists w'. split; [exact H1|]. split; [exact H2|]. split; [exact H3|exact H4].
Defined.

Lemma write_bytes_as_text_witness :
  ascii_decode ["a"; "b"; "c"]%byte = Some "abc" /\
  write colorless_sgr ascii_decode 0 (VBytes ["a"; "b"; "c"]%byte) configured
    = write colorless_sgr ascii_decode 0 (VStr "abc") configured.
Proof.
  split; [reflexivity|].
  apply (write_bytes_as_text colorless_sgr ascii_decode 0); reflexivity.
Defined.

End logger_facts.

(** ** Properties of the template facade *)

Module templates_facts.

Import templates.

(** Neither function asks for a strict treatment of undefined variables:
    the environment is built with the engine's default. *)
Lemma environment_undefined_default (l : option loader) :
  env_undefined (Environment_new l) = Undefined.
Proof. reflexivity. Qed.

(** An exception is never the [JinjaError] that wraps it. *)
Lemma JinjaError_wraps_another (e : exn) : JinjaError e <> e.
Proof.
  induction e; try discriminate.
  intros H. injection H as H. exact (IHe H).
Qed.

Lemma JinjaError_not_engine_error (e : exn) : engine_error (JinjaError e) = false.
Proof. reflexivity. Qed.

Section Facade.

Context {engine : Engine}.


Lemma render_from_string_syntax_error t ctx e :
  from_string (Environment_new None) t = Raise e ->
  isinstance_TemplateSyntaxError e = true ->
  render_from_string t ctx = Raise (JinjaError e).
Proof.
  intros He Hk. unfold render_from_string, try_except. simpl.
  rewrite He, Hk. reflexivity.
Qed.

Lemma render_from_string_compiled t ctx template_obj :
  from_string (Environment_new None) t = Return template_obj ->
  render_from_string t ctx = render template_obj ctx.
Proof.
  intros Ht. unfold render_from_string, try_except. simpl.
  rewrite Ht. reflexivity.
Qed.

(** C5: when the engine raises its syntax error [e] on the template text,
    [render_from_string] raises [JinjaError e]: not an error of the
    engine's hierarchy, and with the message of [e], non-empty when that
    of [e] is.  When the engine compiles the text, the result is the
    engine's rendering of the compiled template with the given context. *)
Theorem render_from_string_error_boundary (t : string) (ctx : context) :
  (forall e,
     from_string (Environment_new None) t = Raise e ->
     isinstance_TemplateSyntaxError e = true ->
     render_from_string t ctx = Raise (JinjaError e) /\
     engine_error (JinjaError e) = false /\
     message (JinjaError e) = message e /\
     (message e <> "" -> message (JinjaError e) <> "")) /\
  (forall template_obj,
     from_string (Environment_new None) t = Return template_obj ->
     render_from_string t ctx = render template_obj ctx /\
     forall text, render template_obj ctx = Return text ->
                  render_from_string t ctx = Return text).
Proof.
  split.
  - intros e He Hk. split; [|auto].
    apply render_from_string_syntax_error; assumption.
  - intros template_obj Ht.
    pose proof (render_from_string_compiled t ctx _ Ht) as Hr.
    split; [exact Hr|]. intros text Hx. rewrite Hr. exact Hx.
Qed.

(** C6: when loading the named template raises [e], [render_from_file]
    raises [e] itself, not a [JinjaError]; when the same [e] is a syntax
    error raised on a template text, [render_from_string] raises something
    else. *)
Theorem render_from_file_does_not_translate
    (this_directory template_file : string) (ctx : context) (e : exn) :
  get_template (Environment_new (Some (FileSystemLoader this_directory)))
    template_file = Raise e ->
  render_from_file this_directory template_file ctx = Raise e /\
  render_from_file this_directory template_file ctx <> Raise (JinjaError e) /\
  forall t,
    from_string (Environment_new None) t = Raise e ->
    isinstance_TemplateSyntaxError e = true ->
    render_from_string t ctx <> render_from_file this_directory template_file ctx.
Proof.
  intros He.
  assert (Hr : render_from_file this_directory template_file ctx = Raise e).
  { unfold render_from_file. simpl. rewrite He. reflexivity. }
  split; [exact Hr|]. rewrite Hr. split.
  - intros H. injection H as H. symmetry in H.
    exact (JinjaError_wraps_another e H).
  - intros t Ht Hk H.
    rewrite (render_from_string_syntax_error t ctx e Ht Hk) in H.
    injection H as H. exact (JinjaError_wraps_another e H).
Qed.

End Facade.

Lemma render_from_string_error_boundary_witness :
  let e := TemplateSyntaxError "unexpected 'end of template'" 1 in
  (render_from_string (engine := stand_in) "{{" ∅ = Raise (JinjaError e) /\
   engine_error (JinjaError e) = false /\
   message (JinjaError e) = message e /\
   (message e <> "" -> message (JinjaError e) <> "")) /\
  (render_from_string (engine := stand_in) "#!/bin/sh" ∅
     = render (Engine := stand_in) "#!/bin/sh" ∅ /\
   forall text, render (Engine := stand_in) "#!/bin/sh" ∅ = Return text ->
                render_from_string (engine := stand_in) "#!/bin/sh" ∅ = Return text).
Proof.
  split.
  - apply (proj1 (render_from_string_error_boundary (engine := stand_in) "{{" ∅));
      reflexivity.
  - apply (proj2 (render_from_string_error_boundary (engine := stand_in) "#!/bin/sh" ∅)).
    reflexivity.
Defined.

Lemma render_from_file_does_not_translate_witness :
  let e := TemplateSyntaxError "unexpected 'end of template'" 1 in
  get_template (Engine := stand_in)
    (Environment_new (Some (FileSystemLoader "/opt/flo/templates"))) "broken.sh"
    = Raise e /\
  render_from_file (engine := stand_in) "/opt/flo/templates" "broken.sh" ∅ = Raise e /\
  render_from_string (engine := stand_in) "{{" ∅
    <> render_from_file (engine := stand_in) "/opt/flo/templates" "broken.sh" ∅.
Proof.
  intros e. split; [reflexivity|].
  destruct (render_from_file_does_not_translate (engine := stand_in)
              "/opt/flo/templates" "broken.sh" ∅ e) as [H1 [_ H3]];
    [reflexivity|].
  split; [exact H1|]. apply H3; reflexivity.
Defined.

End templates_facts.

(** ** The logger over sequences of calls *)

Module logger_sessions.

Import logger logger_facts.
Local Open Scope list_scope.
Local Open Scope py_scope.

(** *** Properties kept by the methods

    [write], [info] and [close] act on the state through four operations
    only; a property of states kept by these four is kept by the three
    methods, whatever they are called on and whether they return or
    raise. *)

Lemma snd_bind {A B} (m : M A) (k : A -> M B) (P : world -> Prop) w :
  P (snd (m w)) ->
  (forall a w', P w' -> P (snd (k a w'))) ->
  P (snd (bind m k w)).
Proof.
  intros Hm Hk. unfold bind. destruct (m w) as [[a|e] w']; simpl in *.
  - apply Hk. exact Hm.
  - exact Hm.
Qed.

Section Kept.

Variable P : world -> Prop.

Hypothesis kept_stdout_write : forall s w, P w -> P (snd (stdout_write s w)).
Hypothesis kept_stdout_flush : forall w, P w -> P (snd (stdout_flush w)).
Hypothesis kept_file_write : forall f s w, P w -> P (snd (file_write f s w)).
Hypothesis kept_file_close : forall f w, P w -> P (snd (file_close f w)).

Variable colorless : string -> string.
Variable decode : list byte -> option string.

Lemma kept_get_log_file self w : P w -> P (snd (get_log_file self w)).
Proof.
  intros H. unfold get_log_file, load, bind, ret, raise. simpl.
  destruct (heap w !! self) as [[fo|[[f|]]]|]; exact H.
Qed.

Lemma kept_write self content w :
  P w -> P (snd (write colorless decode self content w)).
Proof.
  intros H. unfold write. apply snd_bind.
  - destruct (isinstance_bytes content); [|exact H].
    unfold lift. exact H.
  - clear w H. intros [|s|b] w H; try exact H.
    apply snd_bind; [apply kept_stdout_write; exact H|].
    clear w H. intros _ w H.
    apply snd_bind; [apply kept_stdout_flush; exact H|].
    clear w H. intros _ w H.
    apply snd_bind; [apply kept_get_log_file; exact H|].
    clear w H. intros f w H. apply kept_file_write. exact H.
Qed.

Lemma kept_info self content w :
  P w -> P (snd (info colorless decode self content w)).
Proof.
  intros H. unfold info. apply snd_bind; [exact H|].
  intros c w' H'. apply kept_write. exact H'.
Qed.

Lemma kept_close self w : P w -> P (snd (close self w)).
Proof.
  intros H. unfold close. apply snd_bind; [apply kept_get_log_file; exact H|].
  intros f w' H'. apply kept_file_close. exact H'.
Qed.

End Kept.

(** *** The constructor *)

Lemma Logger_new_writable ctx w :
  fs_writable w (abs_log_path ctx) = true ->
  Logger_new ctx w =
    (Return (length (heap w)),
     World (<[length (heap w) := OLogger {| log_file := Some (S (length (heap w))) |}]>
              ((heap w ++ [OLogger {| log_file := None |}])
                 ++ [OFile (File (abs_log_path ctx) false "")]))
           (fs_writable w) (sys_stdout w)
           (trace w ++ [EOpen (abs_log_path ctx) (S (length (heap w)))])
           (_logger w)).
Proof.
  intros Hw. run. rewrite Hw. simpl.
  rewrite length_app. simpl. rewrite Nat.add_1_r. reflexivity.
Qed.

Lemma Logger_new_unwritable ctx w :
  fs_writable w (abs_log_path ctx) = false ->
  Logger_new ctx w =
    (Raise (IOError (abs_log_path ctx)),
     World (heap w ++ [OLogger {| log_file := None |}])
           (fs_writable w) (sys_stdout w) (trace w) (_logger w)).
Proof. intros Hw. run. rewrite Hw. reflexivity. Qed.

Lemma Logger_new_global ctx w : _logger (snd (Logger_new ctx w)) = _logger w.
Proof.
  destruct (fs_writable w (abs_log_path ctx)) eqn:Hw.
  - rewrite (Logger_new_writable _ _ Hw). reflexivity.
  - rewrite (Logger_new_unwritable _ _ Hw). reflexivity.
Qed.



(** *** The singleton is never replaced *)

Section Sessions.

Variable colorless : string -> string.
Variable decode : list byte -> option string.

Lemma perform_keeps_singleton c l w :
  _logger w = Some l -> _logger (perform colorless decode c w) = Some l.
Proof.
  intros Hg. destruct c as [ctx| |ctx|self content|self content|self]; simpl.
  - rewrite (configure_set ctx l w Hg). exact Hg.
  - exact Hg.
  - rewrite Logger_new_global. exact Hg.
  - apply (kept_write (fun w => _logger w = Some l)); auto;
      clear; intros; run; repeat case_match; simpl; auto.
  - apply (kept_info (fun w => _logger w = Some l)); auto;
      clear; intros; run; repeat case_match; simpl; auto.
  - rewrite close_global. exact Hg.
Qed.

(** X1: once [_logger] is set, no sequence of calls replaces it: after
    any calls on any references, constructor included, [get()] returns the
    same instance, and so does [configure] with any run context, without
    changing the state. *)
Theorem singleton_never_replaced (cs : list call) (l : ref) (w : world) :
  _logger w = Some l ->
  let w' := run colorless decode cs w in
  get w' = (Return (Some l), w') /\
  forall ctx, configure ctx w' = (Return l, w').
Proof.
  intros Hg w'. assert (Hg' : _logger w' = Some l).
  { unfold w'. clear w'. revert w Hg.
    induction cs as [|c cs IH]; intros w Hg; [exact Hg|].
    simpl. apply IH. apply perform_keeps_singleton. exact Hg. }
  split.
  - unfold get, get_global. rewrite Hg'. reflexivity.
  - intros ctx. apply configure_set. exact Hg'.
Qed.

(** *** A closed file is final *)



(** *** One log file per process *)

Lemma opened_snoc_other t e :
  (forall path f, e <> EOpen path f) -> opened (t ++ [e]) = opened t.
Proof.
  intros He. rewrite opened_app. destruct e; simpl;
    try (rewrite app_nil_r; reflexivity).
  exfalso. eapply He. reflexivity.
Qed.

Lemma one_log_file_trace w e :
  (forall path f, e <> EOpen path f) ->
  one_log_file w ->
  one_log_file (World (heap w) (fs_writable w) (sys_stdout w)
                      (trace w ++ [e]) (_logger w)).
Proof.
  intros He. unfold one_log_file. simpl.
  rewrite (opened_snoc_other _ _ He). auto.
Qed.

Lemma one_log_file_stdout w out :
  one_log_file w ->
  one_log_file (World (heap w) (fs_writable w) out (trace w) (_logger w)).
Proof. unfold one_log_file. simpl. auto. Qed.

(** Replacing an open file object by one with the same name. *)
Lemma one_log_file_update w r fr fr' :
  heap w !! r = Some (OFile fr) ->
  f_name fr' = f_name fr ->
  one_log_file w ->
  one_log_file (World (<[r := OFile fr']> (heap w)) (fs_writable w)
                      (sys_stdout w) (trace w) (_logger w)).
Proof.
  intros Hr Hn. unfold one_log_file. simpl.
  destruct (_logger w) as [l|]; [|auto].
  intros [f [fo [Hl [Hf Ho]]]]. unfold ref in *.
  assert (Hlr : r <> l) by (intros E; rewrite E in Hr; congruence).
  destruct (decide (r = f)) as [E|Hrf].
  - exists r, fr'. rewrite list_lookup_insert_ne by exact Hlr.
    rewrite list_lookup_insert_eq by (eapply lookup_lt_Some; eassumption).
    rewrite <- E in Hf. rewrite E at 1. rewrite Hn.
    assert (fo = fr) by congruence. subst fo. auto.
  - exists f, fo. rewrite !list_lookup_insert_ne by auto. auto.
Qed.

Lemma configure_keeps_one_log_file ctx w :
  one_log_file w -> one_log_file (snd (configure ctx w)).
Proof.
  intros H. destruct (_logger w) as [l|] eqn:Hg.
  - rewrite (configure_set ctx l w Hg). exact H.
  - unfold one_log_file in H. rewrite Hg in H.
    destruct (fs_writable w (abs_log_path ctx)) eqn:Hw.
    + rewrite (configure_unset _ _ Hg Hw). unfold one_log_file. simpl.
      exists (S (length (heap w))), (File (abs_log_path ctx) false "").
      split; [|split].
      * apply list_lookup_insert_eq. rewrite !length_app. simpl. lia.
      * rewrite list_lookup_insert_ne by lia.
        rewrite lookup_app_r; rewrite length_app; simpl; [|lia].
        replace (S (length (heap w)) - (length (heap w) + 1)) with 0 by lia.
        reflexivity.
      * rewrite opened_app, H. reflexivity.
    + destruct (configure_unwritable _ _ Hg Hw) as [w' [-> [Hg' Ht]]].
      unfold one_log_file. simpl. rewrite Hg', Ht. exact H.
Qed.

Lemma perform_keeps_one_log_file c w :
  through_singleton c = true ->
  one_log_file w -> one_log_file (perform colorless decode c w).
Proof.
  intros Hc H.
  assert (H1 : forall s w0, one_log_file w0 -> one_log_file (snd (stdout_write s w0))).
  { clear. intros s w H. unfold stdout_write, log. simpl.
    apply (one_log_file_trace
             (World (heap w) (fs_writable w) _ (trace w) (_logger w)));
      [discriminate|]. apply one_log_file_stdout. exact H. }
  assert (H2 : forall w0, one_log_file w0 -> one_log_file (snd (stdout_flush w0))).
  { clear. intros w H. unfold stdout_flush, log. simpl.
    apply (one_log_file_trace
             (World (heap w) (fs_writable w) _ (trace w) (_logger w)));
      [discriminate|]. apply one_log_file_stdout. exact H. }
  assert (H3 : forall r s w0, one_log_file w0 -> one_log_file (snd (file_write r s w0))).
  { clear. intros r s w H. run.
    destruct (heap w !! r) as [[fr|lr]|] eqn:Hr; simpl; try exact H.
    destruct (f_closed fr) eqn:Hcr; simpl; [exact H|].
    apply (one_log_file_trace
             (World (<[r:=_]> (heap w)) (fs_writable w) (sys_stdout w)
                    (trace w) (_logger w))); [discriminate|].
    eapply one_log_file_update; [exact Hr|reflexivity|exact H]. }
  assert (H4 : forall r w0, one_log_file w0 -> one_log_file (snd (file_close r w0))).
  { clear. intros r w H. run.
    destruct (heap w !! r) as [[fr|lr]|] eqn:Hr; simpl; try exact H.
    destruct (f_closed fr) eqn:Hcr; simpl; [exact H|].
    apply (one_log_file_trace
             (World (<[r:=_]> (heap w)) (fs_writable w) (sys_stdout w)
                    (trace w) (_logger w))); [discriminate|].
    eapply one_log_file_update; [exact Hr|reflexivity|exact H]. }
  destruct c as [ctx| |ctx|self content|self content|self]; simpl;
    try discriminate.
  - apply configure_keeps_one_log_file. exact H.
  - exact H.
  - apply (kept_write one_log_file); auto.
  - apply (kept_info one_log_file); auto.
  - apply (kept_close one_log_file); auto.
Qed.

(** X3: in a process that reaches the logger through [configure], [get]
    and the methods only, one log file at most is ever opened, whatever
    the calls, their arguments and their failures: while [_logger] is
    [None] no file has been opened, and once it is set it refers to a
    logger whose [log_file] is the only file opened. *)
Theorem one_log_file_per_process (cs : list call) (writable : string -> bool) :
  forallb through_singleton cs = true ->
  let w := run colorless decode cs (initial writable) in
  one_log_file w /\ length (opened (trace w)) <= 1.
Proof.
  intros Hcs w.
  assert (H : one_log_file w).
  { unfold w. clear w.
    assert (H0 : one_log_file (initial writable)) by reflexivity.
    revert H0. generalize (initial writable). revert Hcs.
    induction cs as [|c cs IH]; intros Hcs w H0; [exact H0|].
    simpl in Hcs. apply andb_prop in Hcs as [Hc Hcs].
    simpl. apply IH; [exact Hcs|].
    apply perform_keeps_one_log_file; assumption. }
  split; [exact H|]. unfold one_log_file in H.
  destruct (_logger w).
  - destruct H as [f [fo [_ [_ ->]]]]. simpl. lia.
  - rewrite H. simpl. lia.
Qed.

(** *** What a sequence of writes leaves on the two sinks *)

Lemma write_text_live self f fo s w :
  heap w !! self = Some (OLogger {| log_file := Some f |}) ->
  heap w !! f = Some (OFile fo) ->
  f_closed fo = false ->
  write colorless decode self (VStr s) w =
    (Return tt,
     World (<[f := OFile (File (f_name fo) false (f_data fo +:+ colorless s))]> (heap w))
           (fs_writable w)
           (Stream "" (shown (sys_stdout w) +:+ (pending (sys_stdout w) +:+ s)))
           (trace w ++ [EStdoutWrite s; EStdoutFlush; EFileWrite f (colorless s)])
           (_logger w)).
Proof.
  intros Hl Hf Hc. rewrite write_text_unfold.
  unfold bind at 1. unfold stdout_write at 1, log at 1.
  unfold bind at 1. unfold stdout_flush at 1, log at 1.
  cbn [sys_stdout heap fs_writable trace _logger pending shown].
  unfold bind at 1. rewrite (get_log_file_constructed self f) by exact Hl.
  erewrite file_write_open by (simpl; eassumption).
  simpl. rewrite <- !app_assoc. reflexivity.
Qed.

Lemma write_text_closed self f fo s w :
  heap w !! self = Some (OLogger {| log_file := Some f |}) ->
  heap w !! f = Some (OFile fo) ->
  f_closed fo = true ->
  write colorless decode self (VStr s) w =
    (Raise (ValueError "I/O operation on closed file"),
     World (heap w) (fs_writable w)
           (Stream "" (shown (sys_stdout w) +:+ (pending (sys_stdout w) +:+ s)))
           (trace w ++ [EStdoutWrite s; EStdoutFlush])
           (_logger w)).
Proof.
  intros Hl Hf Hc. rewrite write_text_unfold.
  unfold bind at 1. unfold stdout_write at 1, log at 1.
  unfold bind at 1. unfold stdout_flush at 1, log at 1.
  cbn [sys_stdout heap fs_writable trace _logger pending shown].
  unfold bind at 1. rewrite (get_log_file_constructed self f) by exact Hl.
  erewrite file_write_closed by (simpl; eassumption).
  simpl. rewrite <- !app_assoc. reflexivity.
Qed.

(** X4: on a logger whose file is open, writing a list of texts one after
    the other returns normally; the terminal has then received the texts
    end to end, all flushed, and the file has received the [colorless] of
    each text, end to end, after what each sink had.  The logger is still
    usable, and no file has been opened. *)
Theorem write_all_accumulates (texts : list string) (self f : ref) (fo : file) (w : world) :
  heap w !! self = Some (OLogger {| log_file := Some f |}) ->
  heap w !! f = Some (OFile fo) ->
  f_closed fo = false ->
  exists w',
    write_all colorless decode self texts w = (Return tt, w') /\
    terminal w' = terminal w +:+ join texts /\
    file_sink f w' = Some (f_data fo +:+ join (map colorless texts)) /\
    (texts <> [] -> pending (sys_stdout w') = "") /\
    live self f w' /\
    opened (trace w') = opened (trace w).
Proof.
  revert fo w. induction texts as [|s texts IH]; intros fo w Hl Hf Hc.
  - exists w. split; [reflexivity|]. unfold terminal, file_sink. simpl.
    rewrite !append_nil_r. unfold ref in *. rewrite Hf.
    repeat split; try reflexivity; try congruence; eauto.
  - simpl. unfold bind at 1. rewrite (write_text_live self f fo s w Hl Hf Hc).
    set (w1 := World _ _ _ _ _).
    assert (Hne : self <> f).
    { intros E. unfold ref in *. rewrite E in Hl. congruence. }
    assert (Hl1 : heap w1 !! self = Some (OLogger {| log_file := Some f |})).
    { unfold w1. simpl. rewrite list_lookup_insert_ne by auto. exact Hl. }
    assert (Hf1 : heap w1 !! f
                  = Some (OFile (File (f_name fo) false (f_data fo +:+ colorless s)))).
    { unfold w1. simpl. apply list_lookup_insert_eq.
      eapply lookup_lt_Some; eassumption. }
    destruct (IH _ w1 Hl1 Hf1 eq_refl) as [w' [Hr [Ht [Hs [Hp [Hlive Ho]]]]]].
    exists w'. split; [exact Hr|].
    split; [|split; [|split; [|split]]].
    + rewrite Ht. unfold terminal, w1. simpl.
      rewrite append_nil_r, !append_assoc. reflexivity.
    + rewrite Hs. simpl. rewrite append_assoc. reflexivity.
    + intros _. destruct texts as [|s' texts'].
      * simpl in Hr. injection Hr as <-. reflexivity.
      * apply Hp. discriminate.
    + exact Hlive.
    + rewrite Ho. unfold w1. simpl. rewrite opened_app. simpl.
      apply app_nil_r.
Qed.

(** X5: after [close()], [write] of a text still prints the text on the
    terminal and flushes it, and only then raises [ValueError]; the file
    keeps what it had. *)
Theorem write_after_close_reaches_the_terminal_only
    (self f : ref) (s : string) (w : world) :
  constructed self f w ->
  let w1 := snd (close self w) in
  exists w2,
    fst (close self w) = Return tt /\
    write colorless decode self (VStr s) w1
      = (Raise (ValueError "I/O operation on closed file"), w2) /\
    terminal w2 = terminal w +:+ s /\
    pending (sys_stdout w2) = "" /\
    trace w2 = trace w1 ++ [EStdoutWrite s; EStdoutFlush] /\
    file_sink f w2 = file_sink f w.
Proof.
  intros Hc w1. pose proof (constructed_distinct _ _ _ Hc) as Hne.
  destruct Hc as [Hl [fo Hf]].
  assert (H1 : fst (close self w) = Return tt /\
               heap w1 !! self = Some (OLogger {| log_file := Some f |}) /\
               heap w1 !! f = Some (OFile (File (f_name fo) true (f_data fo))) /\
               sys_stdout w1 = sys_stdout w).
  { unfold w1. destruct (f_closed fo) eqn:Hcl.
    - rewrite (close_closed _ _ _ _ Hl Hf Hcl). simpl.
      destruct fo as [n c d]. simpl in Hcl. subst c. auto.
    - rewrite (close_open _ _ _ _ Hl Hf Hcl). simpl.
      split; [reflexivity|]. split; [|split; [|reflexivity]].
      + rewrite list_lookup_insert_ne by auto. exact Hl.
      + apply list_lookup_insert_eq. eapply lookup_lt_Some; eassumption. }
  destruct H1 as [Hr [Hl1 [Hf1 Hout]]].
  rewrite (write_text_closed self f _ s w1 Hl1 Hf1 eq_refl).
  eexists. split; [exact Hr|]. split; [reflexivity|].
  unfold terminal, file_sink. simpl. rewrite Hout.
  unfold ref in *. rewrite Hf1, Hf.
  rewrite append_nil_r, append_assoc. auto.
Qed.

(** X6: bytes that do not decode reach neither sink: [write] raises
    [UnicodeDecodeError] and the state is the one before the call. *)
Theorem undecodable_bytes_reach_no_sink (self : ref) (b : list byte) (w : world) :
  decode b = None ->
  exists msg,
    write colorless decode self (VBytes b) w = (Raise (UnicodeDecodeError msg), w).
Proof.
  intros Hd. eexists.
  unfold write. simpl. unfold lift, bind. simpl. rewrite Hd. reflexivity.
Qed.

(** *** [configure] after a failure, and the constructor used directly *)

Lemma configure_unwritable_state ctx w :
  _logger w = None -> fs_writable w (abs_log_path ctx) = false ->
  configure ctx w =
    (Raise (IOError (abs_log_path ctx)),
     World (heap w ++ [OLogger {| log_file := None |}])
           (fs_writable w) (sys_stdout w) (trace w) None).
Proof.
  intros Hg Hw. run. rewrite Hg. simpl. rewrite Hw. simpl.
  rewrite Hg. reflexivity.
Qed.

Lemma fresh_pair_live (h : list obj) path :
  let n := length h in
  let h' := <[n := OLogger {| log_file := Some (S n) |}]>
              ((h ++ [OLogger {| log_file := None |}]) ++ [OFile (File path false "")]) in
  h' !! n = Some (OLogger {| log_file := Some (S n) |}) /\
  h' !! S n = Some (OFile (File path false "")).
Proof.
  intros n h'. unfold h', n. split.
  - apply list_lookup_insert_eq. rewrite !length_app. simpl. lia.
  - rewrite list_lookup_insert_ne by lia.
    rewrite lookup_app_r; rewrite length_app; simpl; [|lia].
    replace (S (length h) - (length h + 1)) with 0 by lia. reflexivity.
Qed.

(** X7: a [configure] that fails because the log path cannot be created
    raises [IOError], opens nothing and caches nothing: [get()] still
    returns [None], and the next [configure], with a context whose path
    can be created, constructs the logger on that path. *)
Theorem failed_configure_is_not_cached (ctx1 ctx2 : TaskGraph) (w : world) :
  _logger w = None ->
  fs_writable w (abs_log_path ctx1) = false ->
  fs_writable w (abs_log_path ctx2) = true ->
  exists w1 l w2,
    configure ctx1 w = (Raise (IOError (abs_log_path ctx1)), w1) /\
    get w1 = (Return None, w1) /\
    opened (trace w1) = opened (trace w) /\
    configure ctx2 w1 = (Return l, w2) /\
    get w2 = (Return (Some l), w2) /\
    live l (S l) w2 /\
    opened (trace w2) = opened (trace w) ++ [abs_log_path ctx2].
Proof.
  intros Hg Hw1 Hw2. rewrite (configure_unwritable_state _ _ Hg Hw1).
  set (w1 := World _ _ _ _ _).
  assert (Hg1 : _logger w1 = None) by reflexivity.
  assert (Hw : fs_writable w1 (abs_log_path ctx2) = true) by exact Hw2.
  exists w1. eexists _, _. rewrite (configure_unset _ _ Hg1 Hw).
  split; [reflexivity|]. split; [reflexivity|].
  split; [reflexivity|]. split; [reflexivity|]. split; [reflexivity|].
  destruct (fresh_pair_live (heap w1) (abs_log_path ctx2)) as [Ha Hb].
  split.
  - split; [exact Ha|]. eexists. split; [exact Hb|reflexivity].
  - simpl. rewrite opened_app. reflexivity.
Qed.

(** X8: the constructor used directly goes past the singleton: when the
    path can be created, [Logger(task_graph)] returns a new logger on a
    newly opened, empty file, also when a logger is configured already,
    and [_logger] is what it was, so [get()] does not return the new
    instance. *)
Theorem constructor_goes_past_the_singleton (ctx : TaskGraph) (w : world) :
  fs_writable w (abs_log_path ctx) = true ->
  exists l w',
    Logger_new ctx w = (Return l, w') /\
    heap w !! l = None /\
    live l (S l) w' /\
    file_sink (S l) w' = Some "" /\
    opened (trace w') = opened (trace w) ++ [abs_log_path ctx] /\
    fst (get w') = fst (get w).
Proof.
  intros Hw. rewrite (Logger_new_writable _ _ Hw).
  destruct (fresh_pair_live (heap w) (abs_log_path ctx)) as [Ha Hb].
  eexists _, _. split; [reflexivity|].
  split; [apply lookup_ge_None_2; lia|].
  split; [split; [exact Ha|eexists; split; [exact Hb|reflexivity]]|].
  split; [unfold file_sink; simpl; unfold ref in *; rewrite Hb; reflexivity|].
  split; [simpl; rewrite opened_app; reflexivity|].
  reflexivity.
Qed.

End Sessions.

Lemma singleton_never_replaced_witness :
  _logger configured = Some 0 /\
  let w' := run colorless_sgr ascii_decode
              [Close 0; Configure graph_b; Construct graph_b;
               Write 0 (VStr green_done); Info 7 VNone] configured in
  get w' = (Return (Some 0), w') /\
  forall ctx, configure ctx w' = (Return 0, w').
Proof.
  split; [reflexivity|].
  apply (singleton_never_replaced colorless_sgr ascii_decode _ 0 configured).
  reflexivity.
Defined.


Lemma one_log_file_per_process_witness :
  let cs := [Get; Write 0 (VStr "early"); Configure graph_a;
             Info 0 (VStr green_done); Close 0; Configure graph_b;
             Write 0 (VBytes ["a"%byte])] in
  forallb through_singleton cs = true /\
  let w := run colorless_sgr ascii_decode cs (initial (fun _ => true)) in
  one_log_file w /\ length (opened (trace w)) <= 1.
Proof.
  intros cs. split; [reflexivity|].
  apply (one_log_file_per_process colorless_sgr ascii_decode cs (fun _ => true)).
  reflexivity.
Defined.

Lemma write_all_accumulates_witness :
  let fo := File "/tmp/a/flo.log" false "" in
  (heap configured !! 0 = Some (OLogger {| log_file := Some 1 |}) /\
   heap configured !! 1 = Some (OFile fo) /\ f_closed fo = false) /\
  exists w',
    write_all colorless_sgr ascii_decode 0 [green_done; "abc"] configured
      = (Return tt, w') /\
    terminal w' = terminal configured +:+ join [green_done; "abc"] /\
    file_sink 1 w' = Some (f_data fo +:+ join (map colorless_sgr [green_done; "abc"])) /\
    ([green_done; "abc"] <> [] -> pending (sys_stdout w') = "") /\
    live 0 1 w' /\
    opened (trace w') = opened (trace configured).
Proof.
  intros fo. split; [repeat split|].
  apply (write_all_accumulates colorless_sgr ascii_decode
           [green_done; "abc"] 0 1 fo configured); reflexivity.
Defined.

Lemma write_after_close_reaches_the_terminal_only_witness :
  constructed 0 1 configured /\
  let w1 := snd (close 0 configured) in
  exists w2,
    fst (close 0 configured) = Return tt /\
    write colorless_sgr ascii_decode 0 (VStr "late") w1
      = (Raise (ValueError "I/O operation on closed file"), w2) /\
    terminal w2 = terminal configured +:+ "late" /\
    pending (sys_stdout w2) = "" /\
    trace w2 = trace w1 ++ [EStdoutWrite "late"; EStdoutFlush] /\
    file_sink 1 w2 = file_sink 1 configured.
Proof.
  split; [exact configured_constructed|].
  apply (write_after_close_reaches_the_terminal_only
           colorless_sgr ascii_decode 0 1 "late" configured).
  exact configured_constructed.
Defined.

Lemma undecodable_bytes_reach_no_sink_witness :
  ascii_decode ["a"%byte; xff] = None /\
  exists msg,
    write colorless_sgr ascii_decode 0 (VBytes ["a"%byte; xff]) configured
      = (Raise (UnicodeDecodeError msg), configured).
Proof.
  split; [reflexivity|].
  apply (undecodable_bytes_reach_no_sink colorless_sgr ascii_decode 0 _ configured).
  reflexivity.
Defined.

Lemma failed_configure_is_not_cached_witness :
  let w := initial (String.eqb "/tmp/b/flo.log") in
  (_logger w = None /\
   fs_writable w (abs_log_path graph_a) = false /\
   fs_writable w (abs_log_path graph_b) = true) /\
  exists w1 l w2,
    configure graph_a w = (Raise (IOError (abs_log_path graph_a)), w1) /\
    get w1 = (Return None, w1) /\
    opened (trace w1) = opened (trace w) /\
    configure graph_b w1 = (Return l, w2) /\
    get w2 = (Return (Some l), w2) /\
    live l (S l) w2 /\
    opened (trace w2) = opened (trace w) ++ [abs_log_path graph_b].
Proof.
  intros w. split; [repeat split|].
  apply (failed_configure_is_not_cached graph_a graph_b w); reflexivity.
Defined.

Lemma constructor_goes_past_the_singleton_witness :
  fs_writable configured (abs_log_path graph_a) = true /\
  exists l w',
    Logger_new graph_a configured = (Return l, w') /\
    heap configured !! l = None /\
    live l (S l) w' /\
    file_sink (S l) w' = Some "" /\
    opened (trace w') = opened (trace configured) ++ [abs_log_path graph_a] /\
    fst (get w') = fst (get configured).
Proof.
  split; [reflexivity|].
  apply (constructor_goes_past_the_singleton graph_a configured). reflexivity.
Defined.

End logger_sessions.

(** ** The template facade: which errors are translated *)

Module templates_errors.

Import templates templates_facts.

Section Errors.

Context {engine : Engine}.


(** X10: an error raised while rendering is not translated by either
    function: with a text that compiles, or a file that loads, the error
    of [render] is raised as it is, the engine's syntax error included;
    [JinjaError] stands for errors of compilation only. *)
Theorem render_errors_are_not_translated
    (this_directory : string) (t name : string) (ctx : context)
    (template_obj : Template) (e : exn) :
  render template_obj ctx = Raise e ->
  (from_string (Environment_new None) t = Return template_obj ->
   render_from_string t ctx = Raise e) /\
  (get_template (Environment_new (Some (FileSystemLoader this_directory))) name
     = Return template_obj ->
   render_from_file this_directory name ctx = Raise e).
Proof.
  intros He. split.
  - intros Ht. rewrite (render_from_string_compiled t ctx _ Ht). exact He.
  - intros Hn. unfold render_from_file. simpl. rewrite Hn. exact He.
Qed.

(** The two functions differ in where the template comes from and in
    nothing else: when the file loads to the template the text compiles
    to, they give the same result for every context, text or error. *)
Theorem file_and_string_agree
    (this_directory : string) (t name : string) (ctx : context)
    (template_obj : Template) :
  from_string (Environment_new None) t = Return template_obj ->
  get_template (Environment_new (Some (FileSystemLoader this_directory))) name
    = Return template_obj ->
  render_from_file this_directory name ctx = render_from_string t ctx.
Proof.
  intros Ht Hn. rewrite (render_from_string_compiled t ctx _ Ht).
  unfold render_from_file. simpl. rewrite Hn. reflexivity.
Qed.

End Errors.


Lemma render_errors_are_not_translated_witness :
  let e := UndefinedError "name" in
  render (Engine := lookup_engine) "name" ∅ = Raise e /\
  render_from_string (engine := lookup_engine) "name" ∅ = Raise e /\
  render_from_file (engine := lookup_engine) "/opt/flo/templates" "greeting" ∅ = Raise e.
Proof.
  intros e. split; [reflexivity|].
  destruct (render_errors_are_not_translated (engine := lookup_engine)
              "/opt/flo/templates" "name" "greeting" ∅ "name" e) as [H1 H2];
    [reflexivity|].
  split; [apply H1|apply H2]; reflexivity.
Defined.

Lemma file_and_string_agree_witness :
  let ctx : context := {[ "name" := VStr "flo" ]} in
  render_from_file (engine := lookup_engine) "/opt/flo/templates" "greeting" ctx
    = render_from_string (engine := lookup_engine) "name" ctx /\
  render_from_string (engine := lookup_engine) "name" ctx = Return "flo".
Proof.
  intros ctx. split.
  - apply (file_and_string_agree (engine := lookup_engine)
             "/opt/flo/templates" "name" "greeting" ctx "name"); reflexivity.
  - reflexivity.
Defined.

End templates_errors.

